(** * Chapter01_Markov_Chains/utilities.py: the plotting-style initializer

    The module defines the palette [COLORS] and the function [init], which
    writes ten entries of the plotting library's process-wide registry
    [rcParams].  The registry is a validating dictionary: an assignment
    looks the key up in the library's validator table and stores the
    validated value, or raises.  The development embeds

    - the values the module passes around ([pyval]),
    - the registry, the validators of the keys the module writes, the
      [rc] helper and the [cycler] constructor (the module's collaborators),
    - the module itself: [COLORS], [load_module], [init], [call_init],

    as state-passing functions over a small exception monad, and proves the
    properties of [init] against them. *)

From Stdlib Require Import ZArith String Ascii List Lia.
From stdpp Require Import gmap strings list fin_maps.

Local Open Scope string_scope.

(** ** Values *)

(** A cycler as the [cycler] package builds it: the property names it
    cycles over and its entries, one dictionary (property name to value)
    per step of the cycle. *)
Record Cycler := mkCycler {
  cy_keys : list string;
  cy_items : list (list (string * string))
}.

(** The Python values that reach the registry from this module.  Numbers
    are identified up to Python's [==]: the float that [float()] makes of a
    small int is the same [VNum]. *)
Inductive pyval :=
| VNone
| VBool (b : bool)
| VNum (z : Z)
| VStr (s : string)
| VStrList (l : list string)
| VCycler (c : Cycler).

(** ** Program state and the exception monad *)

(** The state the module can see: its own global [COLORS] (a mutable
    Python list bound at import) and the library's registry. *)
Record state := mkState {
  mod_COLORS : list string;
  rcParams : gmap string pyval
}.

Inductive exn :=
| KeyError (k : string)
| ValueError (k : string)
| TypeError.

Inductive outcome (A : Type) :=
| Ok (a : A)
| Raise (e : exn).
Arguments Ok {A} a.
Arguments Raise {A} e.

(** A statement runs on a state and leaves a state behind even when it
    raises: what was written before the exception stays written. *)
Definition M (A : Type) : Type := state -> outcome A * state.

Definition ret {A} (a : A) : M A := fun s => (Ok a, s).

Definition raise {A} (e : exn) : M A := fun s => (Raise e, s).

Definition bind {A B} (m : M A) (k : A -> M B) : M B :=
  fun s =>
    match m s with
    | (Ok a, s') => k a s'
    | (Raise e, s') => (Raise e, s')
    end.

Declare Scope py_scope.
Delimit Scope py_scope with py.
Notation "x <- c1 ;; c2" := (bind c1 (fun x => c2))
  (at level 100, c1 at next level, right associativity) : py_scope.
Notation "c1 ;; c2" := (bind c1 (fun _ => c2))
  (at level 100, right associativity) : py_scope.

(** ** Strings and colours *)

Definition lower_char (c : ascii) : ascii :=
  let n := nat_of_ascii c in
  if (65 <=? n)%nat && (n <=? 90)%nat then ascii_of_nat (n + 32) else c.

Fixpoint lower (s : string) : string :=
  match s with
  | EmptyString => EmptyString
  | String c r => String (lower_char c) (lower r)
  end.

Definition hex_digit (c : ascii) : option Z :=
  let n := Z.of_nat (nat_of_ascii c) in
  if (48 <=? n)%Z && (n <=? 57)%Z then Some (n - 48)%Z
  else if (97 <=? n)%Z && (n <=? 102)%Z then Some (n - 87)%Z
  else if (65 <=? n)%Z && (n <=? 70)%Z then Some (n - 55)%Z
  else None.

(** The digits of a hex string, most significant first. *)
Fixpoint hex_digits (s : string) : option (list Z) :=
  match s with
  | EmptyString => Some []
  | String c r =>
      match hex_digit c, hex_digits r with
      | Some d, Some ds => Some (d :: ds)
      | _, _ => None
      end
  end.

(** ['#RRGGBB']: a hash sign and exactly six hex digits. *)
Definition is_hex_color (s : string) : bool :=
  match s with
  | String "#" r =>
      match hex_digits r with
      | Some ds => (length ds =? 6)%nat
      | None => false
      end
  | _ => false
  end.

Definition rgba : Type := Z * Z * Z * Z.

(** The library's colour names this development needs: the single-letter
    base colours and the CSS names of the same colours. *)
Definition named_colors : list (string * rgba) :=
  [ ("w", (255, 255, 255, 255)%Z); ("k", (0, 0, 0, 255)%Z);
    ("r", (255, 0, 0, 255)%Z); ("g", (0, 128, 0, 255)%Z);
    ("b", (0, 0, 255, 255)%Z);
    ("white", (255, 255, 255, 255)%Z); ("black", (0, 0, 0, 255)%Z);
    ("red", (255, 0, 0, 255)%Z); ("green", (0, 128, 0, 255)%Z);
    ("blue", (0, 0, 255, 255)%Z) ].

Fixpoint assoc {V} (k : string) (l : list (string * V)) : option V :=
  match l with
  | [] => None
  | (k', v) :: r => if String.eqb k k' then Some v else assoc k r
  end.

(** The library's colour resolution, on names and hex strings: a name is
    looked up as written, then lower-cased when longer than one letter;
    ['#rgb'], ['#rgba'], ['#rrggbb'] and ['#rrggbbaa'] are read digit by
    digit (a short form doubles each digit).  Channels are 0..255.  Other
    spellings the library knows (a grey level written as a number, a
    reference into the cycle, names outside [named_colors]) are no
    colours here. *)
Definition to_rgba (s : string) : option rgba :=
  if String.eqb (lower s) "none" then Some (0, 0, 0, 0)%Z
  else
    match assoc s named_colors with
    | Some c => Some c
    | None =>
        match (if (String.length s =? 1)%nat then None
               else assoc (lower s) named_colors) with
        | Some c => Some c
        | None =>
            match s with
            | String "#" r =>
                match hex_digits r with
                | Some [r1; g1; b1] =>
                    Some (17 * r1, 17 * g1, 17 * b1, 255)%Z
                | Some [r1; g1; b1; a1] =>
                    Some (17 * r1, 17 * g1, 17 * b1, 17 * a1)%Z
                | Some [r1; r2; g1; g2; b1; b2] =>
                    Some (16 * r1 + r2, 16 * g1 + g2, 16 * b1 + b2, 255)%Z
                | Some [r1; r2; g1; g2; b1; b2; a1; a2] =>
                    Some (16 * r1 + r2, 16 * g1 + g2, 16 * b1 + b2,
                          16 * a1 + a2)%Z
                | _ => None
                end
            | _ => None
            end
        end
    end.

Definition is_color_like (s : string) : bool :=
  match to_rgba s with Some _ => true | None => false end.

(** ** The registry's validators

    One validator per kind of key, on the values of [pyval]; [None] is the
    validator raising.  Spellings that the library would also coerce but
    that are not values of this development (a number written in a string,
    a cycler written as an expression) are rejected here; [init] passes
    none of them. *)

Definition validate_float (v : pyval) : option pyval :=
  match v with
  | VNum z => Some (VNum z)
  | VBool b => Some (VNum (if b then 1 else 0))
  | _ => None
  end.

Definition fontsizes : list string :=
  [ "xx-small"; "x-small"; "small"; "medium"; "large"; "x-large";
    "xx-large"; "smaller"; "larger" ].

Definition str_in (s : string) (l : list string) : bool :=
  existsb (String.eqb s) l.

Definition validate_fontsize (v : pyval) : option pyval :=
  match v with
  | VStr s => if str_in (lower s) fontsizes then Some (VStr (lower s)) else None
  | _ => validate_float v
  end.

(** Only the two font types the PDF backend knows, by number or by name. *)
Definition validate_fonttype (v : pyval) : option pyval :=
  match v with
  | VNum z => if (z =? 3)%Z || (z =? 42)%Z then Some (VNum z) else None
  | VBool _ => None
  | VStr s =>
      if String.eqb (lower s) "type3" then Some (VNum 3)
      else if String.eqb (lower s) "truetype" then Some (VNum 42)
      else None
  | _ => None
  end.

Definition validate_color (v : pyval) : option pyval :=
  match v with
  | VStr s =>
      if String.eqb (lower s) "none" then Some (VStr "none")
      else if ((String.length s =? 6)%nat || (String.length s =? 8)%nat)
              && is_color_like ("#" +:+ s)
      then Some (VStr ("#" +:+ s))
      else if is_color_like s then Some (VStr s)
      else None
  | _ => None
  end.

Definition nonempty (s : string) : bool :=
  match s with EmptyString => false | _ => true end.

Definition is_space (c : ascii) : bool :=
  let n := nat_of_ascii c in
  (n =? 32)%nat || ((9 <=? n)%nat && (n <=? 13)%nat).

Fixpoint lstrip (s : string) : string :=
  match s with
  | String c r => if is_space c then lstrip r else s
  | EmptyString => EmptyString
  end.

Fixpoint rstrip (s : string) : string :=
  match s with
  | String c r =>
      match rstrip r with
      | EmptyString => if is_space c then EmptyString else String c EmptyString
      | r' => String c r'
      end
  | EmptyString => EmptyString
  end.

Definition strip (s : string) : string := rstrip (lstrip s).

(** [s.split(',')]: the pieces between commas, empty ones included. *)
Fixpoint split_commas (s : string) : list string :=
  match s with
  | EmptyString => [EmptyString]
  | String c r =>
      if Ascii.eqb c ","%char then EmptyString :: split_commas r
      else
        match split_commas r with
        | p :: ps => String c p :: ps
        | [] => [String c EmptyString]
        end
  end.

(** A list keeps its non-empty strings in order; a string is cut at the
    commas and each non-blank piece is stripped. *)
Definition validate_stringlist (v : pyval) : option pyval :=
  match v with
  | VStrList l => Some (VStrList (List.filter nonempty l))
  | VStr s =>
      Some (VStrList
              (List.map strip
                 (List.filter (fun p => nonempty (strip p)) (split_commas s))))
  | _ => None
  end.

Definition validate_bool (v : pyval) : option pyval :=
  match v with
  | VBool b => Some (VBool b)
  | VNum z =>
      if (z =? 1)%Z then Some (VBool true)
      else if (z =? 0)%Z then Some (VBool false)
      else None
  | VStr s =>
      if str_in (lower s) ["t"; "y"; "yes"; "on"; "true"; "1"]
      then Some (VBool true)
      else if str_in (lower s) ["f"; "n"; "no"; "off"; "false"; "0"]
      then Some (VBool false)
      else None
  | _ => None
  end.

(** *** Cyclers *)

(** The colour-valued artist properties a cycler may range over, and the
    short names the library accepts for them. *)
Definition prop_colors : list string :=
  [ "color"; "facecolor"; "edgecolor"; "markerfacecolor"; "markeredgecolor" ].

Definition prop_aliases : list (string * string) :=
  [ ("c", "color"); ("fc", "facecolor"); ("ec", "edgecolor");
    ("mfc", "markerfacecolor"); ("mec", "markeredgecolor") ].

Definition norm_prop (k : string) : string :=
  match assoc k prop_aliases with Some n => n | None => k end.

(** A list of colours is valid when each non-empty entry is. *)
Definition validate_colorlist (l : list string) : bool :=
  forallb (fun c => match validate_color (VStr c) with
                    | Some _ => true
                    | None => false
                    end)
          (List.filter nonempty l).

(** [Cycler.by_key], at one key: the values the cycle takes for it. *)
Definition by_key (c : Cycler) (k : string) : list string :=
  omap (assoc k) (cy_items c).

(** [Cycler.change_key] applied to every key: short names are replaced by
    the full ones, in the key set and in every entry. *)
Definition normalize_keys (c : Cycler) : Cycler :=
  mkCycler (List.map norm_prop (cy_keys c))
           (List.map (List.map (fun kv => (norm_prop (fst kv), snd kv)))
                     (cy_items c)).

(** The cycler validator: every property is known, no property is given
    under both its names, and the values of each property pass that
    property's validator.  The cycler is stored with its keys normalised
    and its values as given. *)
Definition validate_cycler (v : pyval) : option pyval :=
  match v with
  | VCycler c =>
      let keys := cy_keys c in
      if forallb (fun k => str_in k prop_colors
                           || str_in k (List.map fst prop_aliases)) keys
         && forallb (fun k => String.eqb (norm_prop k) k
                              || negb (str_in (norm_prop k) keys)) keys
      then
        let c' := normalize_keys c in
        if forallb (fun k => validate_colorlist (by_key c' k)) (cy_keys c')
        then Some (VCycler c')
        else None
      else None
  | _ => None
  end.

(** *** The validator table *)

(** The rows of the library's table for the keys this module writes; a
    key without a row is not a registry key. *)
Definition rc_validators : list (string * (pyval -> option pyval)) :=
  [ ("figure.dpi", validate_float);
    ("axes.linewidth", validate_float);
    ("lines.linewidth", validate_float);
    ("font.size", validate_float);
    ("legend.fontsize", validate_fontsize);
    ("pdf.fonttype", validate_fonttype);
    ("figure.facecolor", validate_color);
    ("font.sans-serif", validate_stringlist);
    ("text.usetex", validate_bool);
    ("axes.prop_cycle", validate_cycler) ].

(** ** The library operations the module calls *)

(** [rcParams[key] = val]: an unknown key raises [KeyError], a rejected
    value raises [ValueError], otherwise the validated value is stored. *)
Definition rc_setitem (key : string) (val : pyval) : M unit :=
  fun s =>
    match assoc key rc_validators with
    | None => (Raise (KeyError key), s)
    | Some validate =>
        match validate val with
        | None => (Raise (ValueError key), s)
        | Some cval =>
            (Ok tt, mkState (mod_COLORS s) (<[key := cval]> (rcParams s)))
        end
    end.

Definition rc_aliases : list (string * string) :=
  [ ("lw", "linewidth"); ("ls", "linestyle"); ("c", "color");
    ("fc", "facecolor"); ("ec", "edgecolor"); ("mew", "markeredgewidth");
    ("aa", "antialiased") ].

(** [plt.rc(group, **kwargs)]: each keyword, with its short name expanded,
    is assigned under the key [group.name], in order. *)
Fixpoint plt_rc (group : string) (kwargs : list (string * pyval)) : M unit :=
  match kwargs with
  | [] => ret tt
  | (k, v) :: r =>
      let name := match assoc k rc_aliases with Some n => n | None => k end in
      (rc_setitem (group +:+ "." +:+ name) v ;; plt_rc group r)%py
  end.

(** [cycler(label=itr)]: one fresh single-entry dictionary per element of
    [itr], in order; the elements are copied out of [itr]. *)
Definition cycler (label : string) (itr : list string) : Cycler :=
  mkCycler [label] (List.map (fun v => [(label, v)]) itr).

(** ** The module *)

(** Line 5: the palette literal. *)
Definition COLORS : list string :=
  [ "#242482"; "#F00D2C"; "#0071BE"; "#4E8F00"; "#553C67"; "#DA5319" ].

(** Importing the module binds the global [COLORS] to the literal and
    leaves the registry as the library has it. *)
Definition load_module (cfg : gmap string pyval) : state :=
  mkState COLORS cfg.

(** Reading the global [COLORS] at call time. *)
Definition get_COLORS : M (list string) := fun s => (Ok (mod_COLORS s), s).

(** Lines 7-17.  A Python function without a [return] statement returns
    [None]. *)
Definition init (use_latex : bool) : M pyval :=
  (rc_setitem "figure.dpi" (VNum 150) ;;
   rc_setitem "axes.linewidth" (VNum 2) ;;
   rc_setitem "lines.linewidth" (VNum 2) ;;
   rc_setitem "font.size" (VNum 14) ;;
   rc_setitem "legend.fontsize" (VNum 10) ;;
   rc_setitem "pdf.fonttype" (VNum 42) ;;
   rc_setitem "figure.facecolor" (VStr "white") ;;
   rc_setitem "font.sans-serif"
              (VStrList ["Helvetica Neue"; "Helvetica"; "Tahoma"]) ;;
   rc_setitem "text.usetex" (VBool use_latex) ;;
   colors <- get_COLORS ;;
   plt_rc "axes" [("prop_cycle", VCycler (cycler "color" colors))] ;;
   ret VNone)%py.

(** A call of [init] with positional boolean arguments: the signature
    [init(use_latex=False)] binds a missing argument to [False] and
    refuses more than one argument before the body runs. *)
Definition call_init (args : list bool) : M pyval :=
  match args with
  | [] => init false
  | [b] => init b
  | _ => raise TypeError
  end.

(** ** How an axes hands out series colours

    A new axes takes the entries of the registry's cycle and an index 0;
    each series without an explicit colour takes the colour of the entry
    at the index and moves the index on by one, modulo the number of
    entries.  An entry without a colour gives black and leaves the index. *)

Definition cycler_items (cfg : gmap string pyval)
  : list (list (string * string)) :=
  match cfg !! "axes.prop_cycle" with
  | Some (VCycler c) => cy_items c
  | _ => []
  end.

Definition get_next_color (items : list (list (string * string)))
           (idx : nat) : string * nat :=
  match items !! idx with
  | Some entry =>
      match assoc "color" entry with
      | Some c => (c, (S idx) mod (length items))
      | None => ("k", idx)
      end
  | None => ("k", idx)
  end.

Fixpoint assign_colors (items : list (list (string * string)))
         (idx n : nat) : list string :=
  match n with
  | O => []
  | S n' =>
      let (c, idx') := get_next_color items idx in
      c :: assign_colors items idx' n'
  end.

(** The colours of the first [n] series drawn on a fresh axes. *)
Definition series_colors (cfg : gmap string pyval) (n : nat) : list string :=
  assign_colors (cycler_items cfg) 0 n.

(** The ten registry keys [init] assigns, in the order of the source. *)
Definition written_keys : list string :=
  [ "figure.dpi"; "axes.linewidth"; "lines.linewidth"; "font.size";
    "legend.fontsize"; "pdf.fonttype"; "figure.facecolor";
    "font.sans-serif"; "text.usetex"; "axes.prop_cycle" ].

(** The registry entries [init use_latex] leaves behind. *)
Definition written (use_latex : bool) : gmap string pyval :=
  list_to_map
    [ ("figure.dpi", VNum 150); ("axes.linewidth", VNum 2);
      ("lines.linewidth", VNum 2); ("font.size", VNum 14);
      ("legend.fontsize", VNum 10); ("pdf.fonttype", VNum 42);
      ("figure.facecolor", VStr "white");
      ("font.sans-serif", VStrList ["Helvetica Neue"; "Helvetica"; "Tahoma"]);
      ("text.usetex", VBool use_latex);
      ("axes.prop_cycle", VCycler (cycler "color" COLORS)) ].

(** Any number of calls of [init] after the import, in order; the state
    is kept whether a call returns or raises. *)
Definition run_calls (flags : list bool) (s : state) : state :=
  fold_left (fun st b => snd (init b st)) flags s.

(** The colours the registry's cycle ranges over, in order. *)
Definition cycle_colors (cfg : gmap string pyval) : list string :=
  match cfg !! "axes.prop_cycle" with
  | Some (VCycler c) => by_key c "color"
  | _ => []
  end.

(** The colour a figure's background resolves to. *)
Definition facecolor_rgba (cfg : gmap string pyval) : option rgba :=
  match cfg !! "figure.facecolor" with
  | Some (VStr s) => to_rgba s
  | _ => None
  end.

(** [keeps obs m]: running [m] changes nothing that [obs] observes, whether [m] returns or raises. *)
Definition keeps {A O} (obs : state -> O) (m : M A) : Prop :=
  forall s, obs (snd (m s)) = obs s.

(** * Properties *)

(** ** The monad *)

Lemma bind_ok {A B} (m : M A) (k : A -> M B) s a s' :
  m s = (Ok a, s') -> bind m k s = k a s'.
Proof. intros H. unfold bind. now rewrite H. Qed.

Lemma bind_raise {A B} (m : M A) (k : A -> M B) s e s' :
  m s = (Raise e, s') -> bind m k s = (Raise e, s').
Proof. intros H. unfold bind. now rewrite H. Qed.

(** ** What a run leaves untouched *)

Lemma keeps_ret {A O} (obs : state -> O) (a : A) : keeps obs (ret a).
Proof. intros s. reflexivity. Qed.

Lemma keeps_raise {A O} (obs : state -> O) e : keeps obs (@raise A e).
Proof. intros s. reflexivity. Qed.

Lemma keeps_bind {A B O} (obs : state -> O) (m : M A) (k : A -> M B) :
  keeps obs m -> (forall a, keeps obs (k a)) -> keeps obs (bind m k).
Proof.
  intros Hm Hk s. unfold bind. specialize (Hm s).
  destruct (m s) as [[a|e] s1]; simpl in *.
  - now rewrite Hk.
  - exact Hm.
Qed.

Lemma keeps_get_COLORS {O} (obs : state -> O) : keeps obs get_COLORS.
Proof. intros s. reflexivity. Qed.

Lemma rc_setitem_keeps_COLORS key val : keeps mod_COLORS (rc_setitem key val).
Proof.
  intros s. unfold rc_setitem.
  destruct (assoc key rc_validators) as [v|]; [|reflexivity].
  destruct (v val); reflexivity.
Qed.

Lemma rc_setitem_keeps_other key val k :
  k <> key -> keeps (fun s => rcParams s !! k) (rc_setitem key val).
Proof.
  intros Hne s. unfold rc_setitem.
  destruct (assoc key rc_validators) as [v|]; [|reflexivity].
  destruct (v val); [|reflexivity].
  simpl. apply lookup_insert_ne. congruence.
Qed.

Lemma plt_rc_keeps {O} (obs : state -> O) group kwargs :
  (forall key val, In key (List.map (fun kv =>
       group +:+ "." +:+ match assoc (fst kv) rc_aliases with
                         | Some n => n
                         | None => fst kv
                         end) kwargs) -> keeps obs (rc_setitem key val)) ->
  keeps obs (plt_rc group kwargs).
Proof.
  induction kwargs as [|[k v] r IH]; intros H; simpl.
  - apply keeps_ret.
  - apply keeps_bind.
    + apply H. simpl. now left.
    + intros _. apply IH. intros key val Hin. apply H. simpl. now right.
Qed.

Lemma init_keeps_COLORS b : keeps mod_COLORS (init b).
Proof.
  unfold init.
  do 9 (apply keeps_bind; [apply rc_setitem_keeps_COLORS | intros _]).
  apply keeps_bind; [apply keeps_get_COLORS | intros colors].
  apply keeps_bind; [| intros _; apply keeps_ret].
  apply plt_rc_keeps. intros. apply rc_setitem_keeps_COLORS.
Qed.

Lemma init_keeps_other b k :
  k ∉ written_keys -> keeps (fun s => rcParams s !! k) (init b).
Proof.
  intros Hk. unfold init.
  do 9 (apply keeps_bind;
        [apply rc_setitem_keeps_other; intros ->; apply Hk;
         unfold written_keys; set_solver
        | intros _]).
  apply keeps_bind; [apply keeps_get_COLORS | intros colors].
  apply keeps_bind; [| intros _; apply keeps_ret].
  apply plt_rc_keeps. simpl. intros key val [<-|[]].
  apply rc_setitem_keeps_other. intros ->. apply Hk.
  unfold written_keys. set_solver.
Qed.

(** ** The run of [init] on a freshly imported module *)

Lemma written_union b (cfg : gmap string pyval) :
  <["axes.prop_cycle" := VCycler (cycler "color" COLORS)]>
    (<["text.usetex" := VBool b]>
       (<["font.sans-serif" :=
            VStrList ["Helvetica Neue"; "Helvetica"; "Tahoma"]]>
          (<["figure.facecolor" := VStr "white"]>
             (<["pdf.fonttype" := VNum 42]>
                (<["legend.fontsize" := VNum 10]>
                   (<["font.size" := VNum 14]>
                      (<["lines.linewidth" := VNum 2]>
                         (<["axes.linewidth" := VNum 2]>
                            (<["figure.dpi" := VNum 150]> cfg)))))))))
  = written b ∪ cfg.
Proof.
  apply map_eq. intros k. rewrite lookup_union. unfold written. simpl.
  destruct (decide (k ∈ written_keys)) as [Hin|Hout].
  - unfold written_keys in Hin.
    repeat (apply elem_of_cons in Hin as [->|Hin];
            [simplify_map_eq; by destruct (cfg !! _)|]).
    by apply elem_of_nil in Hin.
  - assert (Hne : forall key, key ∈ written_keys -> key <> k)
      by (intros key Hkey ->; contradiction).
    rewrite !lookup_insert_ne by (apply Hne; unfold written_keys; set_solver).
    rewrite lookup_empty. by destruct (cfg !! k).
Qed.

Lemma init_loaded b cfg :
  init b (load_module cfg) = (Ok VNone, load_module (written b ∪ cfg)).
Proof.
  unfold load_module. rewrite <- written_union.
  vm_compute. reflexivity.
Qed.

(** ** The entries [init] leaves behind *)

Lemma written_in b k : k ∈ written_keys -> is_Some (written b !! k).
Proof.
  unfold written_keys, written. intros Hin.
  repeat (apply elem_of_cons in Hin as [->|Hin]; [by simplify_map_eq|]).
  by apply elem_of_nil in Hin.
Qed.

Lemma written_out b k : k ∉ written_keys -> written b !! k = None.
Proof.
  intros Hout. unfold written. simpl.
  rewrite !lookup_insert_ne
    by (intros <-; apply Hout; unfold written_keys; set_solver).
  apply lookup_empty.
Qed.

Lemma written_same_keys a b k : is_Some (written a !! k) -> is_Some (written b !! k).
Proof.
  intros Ha. destruct (decide (k ∈ written_keys)) as [Hin|Hout].
  - by apply written_in.
  - rewrite (written_out a k Hout) in Ha. by destruct Ha.
Qed.

Lemma written_overwrites a b (cfg : gmap string pyval) :
  written b ∪ (written a ∪ cfg) = written b ∪ cfg.
Proof.
  apply map_eq. intros k. rewrite !lookup_union.
  destruct (written b !! k) as [v|] eqn:Hb.
  - by destruct (written a !! k), (cfg !! k).
  - destruct (written a !! k) as [w|] eqn:Ha; [|by destruct (cfg !! k)].
    assert (Hs : is_Some (written b !! k))
      by (apply (written_same_keys a); rewrite Ha; eauto).
    rewrite Hb in Hs. by destruct Hs.
Qed.

Lemma init_loaded_lookup b cfg k :
  rcParams (snd (init b (load_module cfg))) !! k
  = match written b !! k with Some v => Some v | None => cfg !! k end.
Proof.
  rewrite init_loaded. simpl. rewrite lookup_union.
  by destruct (written b !! k), (cfg !! k).
Qed.

(** Whatever the state, [init] returns [None] or stops at the cycle: the
    nine plain assignments cannot raise, the cycle raises exactly when the
    global [COLORS] has been given an entry that is no colour. *)
Lemma init_outcome b s :
  fst (init b s) = Ok VNone \/
  fst (init b s) = Raise (ValueError "axes.prop_cycle").
Proof.
  destruct s as [cols cfg].
  unfold init, bind, get_COLORS, plt_rc, rc_setitem. simpl.
  unfold bind, rc_setitem. simpl.
  destruct (validate_colorlist _); simpl; [left | right]; reflexivity.
Qed.

(** ** The colour cycle of an axes *)

Section Cycle.
Variable l : list string.
Let items := cy_items (cycler "color" l).

Lemma cycler_items_length : length items = length l.
Proof. unfold items. simpl. apply length_map. Qed.

Lemma cycler_items_lookup idx v :
  l !! idx = Some v -> items !! idx = Some [("color", v)].
Proof.
  intros H. unfold items. simpl. rewrite list_lookup_fmap.
  by rewrite H.
Qed.

Lemma get_next_color_cycler idx v :
  l !! idx = Some v ->
  get_next_color items idx = (v, S idx mod length l).
Proof.
  intros H. unfold get_next_color.
  rewrite (cycler_items_lookup idx v H). simpl.
  by rewrite cycler_items_length.
Qed.

(** Started at index [idx], the [i]-th colour handed out is the entry
    [idx + i] places on, counted modulo the length of the cycle. *)
Lemma assign_colors_lookup n : forall idx i,
  idx < length l -> i < n ->
  assign_colors items idx n !! i = l !! ((idx + i) mod length l).
Proof.
  induction n as [|n IH]; intros idx i Hidx Hi; [lia|].
  destruct (lookup_lt_is_Some_2 l idx Hidx) as [v Hv].
  simpl. rewrite (get_next_color_cycler idx v Hv).
  destruct i as [|i]; simpl.
  - rewrite Nat.add_0_r, Nat.mod_small by lia. by rewrite Hv.
  - rewrite IH.
    + rewrite Nat.Div0.add_mod_idemp_l. f_equal. f_equal. lia.
    + apply Nat.mod_upper_bound. lia.
    + lia.
Qed.
End Cycle.

Lemma by_key_cycler l : by_key (cycler "color" l) "color" = l.
Proof.
  unfold by_key, cycler. simpl.
  induction l as [|c r IH]; [done|].
  change (c :: omap (assoc "color") (List.map (fun v => [("color", v)]) r)
          = c :: r).
  by rewrite IH.
Qed.

Lemma run_calls_keeps_COLORS flags :
  forall s, mod_COLORS (run_calls flags s) = mod_COLORS s.
Proof.
  unfold run_calls.
  induction flags as [|b r IH]; intros s; simpl; [done|].
  rewrite IH. apply init_keeps_COLORS.
Qed.

Lemma is_written k :
  bool_decide (k ∈ written_keys) = true -> k ∈ written_keys.
Proof. apply bool_decide_eq_true_1. Qed.

Lemma not_written k :
  bool_decide (k ∈ written_keys) = false -> k ∉ written_keys.
Proof. intros H Hin. apply bool_decide_eq_false in H. contradiction. Qed.

(** ** The error branches are live *)

Example setitem_unknown_key :
  rc_setitem "figure.colour" (VStr "white") (load_module ∅)
  = (Raise (KeyError "figure.colour"), load_module ∅).
Proof. reflexivity. Qed.

Example setitem_bad_fonttype :
  fst (rc_setitem "pdf.fonttype" (VNum 7) (load_module ∅))
  = Raise (ValueError "pdf.fonttype").
Proof. reflexivity. Qed.

(** With a global [COLORS] that holds a non-colour, [init] raises at its
    last line, after the nine plain assignments have been made. *)
Example init_bad_palette :
  let r := init true (mkState ["#12345"; "nocolour"] ∅) in
  fst r = Raise (ValueError "axes.prop_cycle") /\
  rcParams (snd r) !! "text.usetex" = Some (VBool true) /\
  rcParams (snd r) !! "axes.prop_cycle" = None.
Proof. vm_compute. repeat split. Qed.

Example series_colors_eight :
  series_colors (rcParams (snd (init false (load_module ∅)))) 8
  = (COLORS ++ ["#242482"; "#F00D2C"])%list.
Proof. vm_compute. reflexivity. Qed.

(** * The claims *)

(** C1.  For every flag [b], after [init b] on the freshly imported module
    the registry key [text.usetex] holds [b]; a call without arguments
    leaves it [False], and [init True] leaves it [True]. *)
Theorem init_sets_usetex :
  (forall b cfg,
      rcParams (snd (init b (load_module cfg))) !! "text.usetex"
      = Some (VBool b)) /\
  (forall cfg,
      rcParams (snd (call_init [] (load_module cfg))) !! "text.usetex"
      = Some (VBool false)) /\
  (forall cfg,
      rcParams (snd (call_init [true] (load_module cfg))) !! "text.usetex"
      = Some (VBool true)).
Proof.
  assert (H : forall b cfg,
             rcParams (snd (init b (load_module cfg))) !! "text.usetex"
             = Some (VBool b)).
  { intros b cfg. rewrite init_loaded_lookup. reflexivity. }
  split; [exact H|]. split; intros cfg; apply H.
Qed.

(** C2.  After [init] with either flag the registry holds the fixed style
    values: [figure.dpi] 150, [axes.linewidth] 2, [lines.linewidth] 2,
    [font.size] 14, [legend.fontsize] 10, [pdf.fonttype] 42,
    [font.sans-serif] the list Helvetica Neue, Helvetica, Tahoma in that
    order, and a figure background that is the colour ["#FFFFFF"]: the key
    [figure.facecolor] holds the colour name [white], which resolves to
    the same colour as ["#FFFFFF"]. *)
Theorem init_fixed_style (b : bool) (cfg : gmap string pyval) :
  let r := rcParams (snd (init b (load_module cfg))) in
  r !! "figure.dpi" = Some (VNum 150) /\
  r !! "axes.linewidth" = Some (VNum 2) /\
  r !! "lines.linewidth" = Some (VNum 2) /\
  r !! "font.size" = Some (VNum 14) /\
  r !! "legend.fontsize" = Some (VNum 10) /\
  r !! "pdf.fonttype" = Some (VNum 42) /\
  r !! "font.sans-serif"
    = Some (VStrList ["Helvetica Neue"; "Helvetica"; "Tahoma"]) /\
  r !! "figure.facecolor" = Some (VStr "white") /\
  facecolor_rgba r = to_rgba "#FFFFFF" /\
  facecolor_rgba r = Some (255, 255, 255, 255)%Z.
Proof.
  assert (Hface : rcParams (snd (init b (load_module cfg)))
                    !! "figure.facecolor" = Some (VStr "white"))
    by (rewrite init_loaded_lookup; reflexivity).
  cbv zeta. unfold facecolor_rgba. rewrite Hface.
  repeat split; try (rewrite init_loaded_lookup; reflexivity);
    vm_compute; reflexivity.
Qed.

(** C3.  After [init] the registry's series-colour cycle is the six-entry
    palette [COLORS] in order, and on a fresh axes drawing [n] series,
    series [i] takes palette entry [i mod 6], for every [n] (in particular
    every [n >= 6]); as soon as there is a seventh series it reuses
    entry 0. *)
Theorem init_color_cycle (b : bool) (cfg : gmap string pyval) (n i : nat)
  (Hi : i < n) :
  let r := rcParams (snd (init b (load_module cfg))) in
  length COLORS = 6 /\
  r !! "axes.prop_cycle" = Some (VCycler (cycler "color" COLORS)) /\
  cycle_colors r = COLORS /\
  series_colors r n !! i = COLORS !! (i mod 6) /\
  (6 < n -> series_colors r n !! 6 = COLORS !! 0).
Proof.
  assert (Hcyc : rcParams (snd (init b (load_module cfg)))
                   !! "axes.prop_cycle"
                 = Some (VCycler (cycler "color" COLORS)))
    by (rewrite init_loaded_lookup; reflexivity).
  cbv zeta. unfold cycle_colors, series_colors, cycler_items. rewrite Hcyc.
  split; [reflexivity|]. split; [reflexivity|].
  split; [apply by_key_cycler|].
  split.
  - rewrite (assign_colors_lookup COLORS n 0 i) by (simpl; lia).
    reflexivity.
  - intros Hn.
    rewrite (assign_colors_lookup COLORS n 0 6) by (simpl; lia).
    reflexivity.
Qed.

Lemma init_color_cycle_witness :
  6 < 7 /\
  series_colors (rcParams (snd (init false (load_module ∅)))) 7 !! 6
  = COLORS !! (6 mod 6) /\
  series_colors (rcParams (snd (init false (load_module ∅)))) 7 !! 6
  = Some "#242482".
Proof.
  assert (Hlt : 6 < 7) by lia.
  destruct (init_color_cycle false ∅ 7 6 Hlt) as (_ & _ & _ & Hi & H7).
  split; [exact Hlt|]. split; [exact Hi|].
  rewrite (H7 Hlt). reflexivity.
Defined.

(** C4.  Last write wins: from the imported module and any registry,
    [init a] followed by [init b] ends in exactly the result and state of
    [init b] alone; in particular [init b] twice is [init b] once. *)
Theorem init_last_write_wins (a b : bool) (cfg : gmap string pyval) :
  bind (init a) (fun _ => init b) (load_module cfg)
  = init b (load_module cfg) /\
  run_calls [a; b] (load_module cfg) = run_calls [b] (load_module cfg) /\
  bind (init b) (fun _ => init b) (load_module cfg)
  = init b (load_module cfg).
Proof.
  assert (H : forall x y,
             bind (init x) (fun _ => init y) (load_module cfg)
             = init y (load_module cfg)).
  { intros x y. rewrite (bind_ok _ _ _ _ _ (init_loaded x cfg)).
    rewrite !init_loaded. by rewrite written_overwrites. }
  split; [apply H|]. split; [|apply H].
  unfold run_calls. cbn [fold_left].
  rewrite (init_loaded a cfg). cbn [snd].
  rewrite !init_loaded. cbn [snd]. by rewrite written_overwrites.
Qed.

(** C5.  The palette has exactly six entries, each of the form
    ['#RRGGBB'] and each a colour the library accepts; the import binds
    the global to it, and no call of [init], whatever its argument and
    whatever the state, changes the global: after any sequence of calls
    it still holds the six entries. *)
Theorem COLORS_six_hex_unchanged :
  length COLORS = 6 /\
  Forall (fun c => is_hex_color c = true) COLORS /\
  Forall (fun c => validate_color (VStr c) = Some (VStr c)) COLORS /\
  (forall cfg, mod_COLORS (load_module cfg) = COLORS) /\
  (forall b s, mod_COLORS (snd (init b s)) = mod_COLORS s) /\
  (forall flags cfg, mod_COLORS (run_calls flags (load_module cfg)) = COLORS).
Proof.
  split; [reflexivity|].
  split; [repeat constructor|].
  split; [repeat constructor|].
  split; [reflexivity|].
  split; [intros b s; apply init_keeps_COLORS|].
  intros flags cfg. apply run_calls_keeps_COLORS.
Qed.

(** C6.  A call of [init] without arguments raises nothing: it returns
    [None] with all ten entries written, and no exception is its
    outcome. *)
Theorem init_default_no_error (cfg : gmap string pyval) :
  call_init [] (load_module cfg)
  = (Ok VNone, load_module (written false ∪ cfg)) /\
  (forall e s', call_init [] (load_module cfg) <> (Raise e, s')).
Proof.
  assert (H : call_init [] (load_module cfg)
              = (Ok VNone, load_module (written false ∪ cfg)))
    by apply init_loaded.
  split; [exact H|]. intros e s'. rewrite H. discriminate.
Qed.

(** C7.  [init] has one parameter with default [False]: a call without
    arguments is the call [init(False)], with the same outcome and final
    state from every state, and a call with more than one argument is
    refused without touching the state. *)
Theorem call_init_default :
  (forall s, call_init [] s = call_init [false] s) /\
  (forall s, call_init [] s = init false s) /\
  (forall b s, call_init [b] s = init b s) /\
  (forall b1 b2 rest s, call_init (b1 :: b2 :: rest) s = (Raise TypeError, s)).
Proof. repeat split. Qed.

(** C8.  [init] returns no value: on the imported module it returns
    [None] for every flag, and from any state at all its outcome is
    [None] or an exception, never another value. *)
Theorem init_returns_None :
  (forall b cfg, fst (init b (load_module cfg)) = Ok VNone) /\
  (forall b s, fst (init b s) = Ok VNone \/ exists e, fst (init b s) = Raise e).
Proof.
  split.
  - intros b cfg. by rewrite init_loaded.
  - intros b s. destruct (init_outcome b s) as [H|H]; [by left|].
    right. eauto.
Qed.

(** C9.  Frame: [init] changes the ten written keys only; every other
    registry entry, and the module's global, is after the call what it
    was before, from any state and for either flag. *)
Theorem init_frame (b : bool) (s : state) (k : string)
  (Hk : k ∉ written_keys) :
  rcParams (snd (init b s)) !! k = rcParams s !! k /\
  mod_COLORS (snd (init b s)) = mod_COLORS s.
Proof.
  split.
  - apply (init_keeps_other b k Hk s).
  - apply init_keeps_COLORS.
Qed.

Lemma init_frame_witness :
  ("savefig.dpi" ∉ written_keys) /\
  rcParams (snd (init true (load_module {["savefig.dpi" := VNum 300]})))
    !! "savefig.dpi" = Some (VNum 300).
Proof.
  assert (H : "savefig.dpi" ∉ written_keys)
    by (apply not_written; vm_compute; reflexivity).
  split; [exact H|].
  destruct (init_frame true (load_module {["savefig.dpi" := VNum 300]})
                       "savefig.dpi" H) as [Hr _].
  rewrite Hr. reflexivity.
Defined.

(** C10.  What [init] writes depends on its flag only: from any two
    registries, the same flag leaves the same value under every written
    key, namely the entry of [written]; and runs from equal states agree
    on outcome and final state. *)
Theorem init_noninterference (b : bool) (cfg1 cfg2 : gmap string pyval)
  (k : string) (Hk : k ∈ written_keys) :
  rcParams (snd (init b (load_module cfg1))) !! k
  = rcParams (snd (init b (load_module cfg2))) !! k /\
  rcParams (snd (init b (load_module cfg1))) !! k = written b !! k /\
  is_Some (written b !! k) /\
  (forall s1 s2, s1 = s2 -> init b s1 = init b s2).
Proof.
  destruct (written_in b k Hk) as [v Hv].
  rewrite !init_loaded_lookup, Hv.
  repeat split; eauto. by intros s1 s2 ->.
Qed.

Lemma init_noninterference_witness :
  ("font.size" ∈ written_keys) /\
  rcParams (snd (init true (load_module {["font.size" := VNum 8]})))
    !! "font.size"
  = rcParams (snd (init true (load_module ∅))) !! "font.size".
Proof.
  assert (H : "font.size" ∈ written_keys)
    by (apply is_written; vm_compute; reflexivity).
  split; [exact H|].
  exact (proj1 (init_noninterference true {["font.size" := VNum 8]} ∅
                                     "font.size" H)).
Defined.

(** * Further properties of [init] *)

(** ** The run of [init] on any state *)

Lemma normalize_keys_cycler l :
  normalize_keys (cycler "color" l) = cycler "color" l.
Proof.
  unfold normalize_keys, cycler. simpl. f_equal.
  rewrite List.map_map. apply List.map_ext. reflexivity.
Qed.

(** The nine plain assignments always go through; the tenth goes through
    exactly when the global [COLORS], as it is at the call, passes the
    colour-list validator, and otherwise leaves the old cycle in place. *)
Lemma init_any b cols cfg :
  init b (mkState cols cfg)
  = if validate_colorlist cols
    then (Ok VNone,
          mkState cols (<["axes.prop_cycle" := VCycler (cycler "color" cols)]>
                          (written b ∪ cfg)))
    else (Raise (ValueError "axes.prop_cycle"),
          mkState cols (partial_alter (fun _ => cfg !! "axes.prop_cycle")
                                      "axes.prop_cycle" (written b ∪ cfg))).
Proof.
  unfold init, bind, get_COLORS, plt_rc, rc_setitem. simpl.
  unfold bind, rc_setitem. simpl.
  change (norm_prop "color") with "color".
  rewrite normalize_keys_cycler, by_key_cycler, andb_true_r.
  change ("axes" +:+ "." +:+ "prop_cycle") with "axes.prop_cycle".
  destruct (validate_colorlist cols); simpl.
  - rewrite <- written_union. by rewrite insert_insert_eq.
  - f_equal. f_equal. apply map_eq. intros k.
    rewrite lookup_partial_alter. case_decide as Hk.
    + subst k. by rewrite !lookup_insert_ne by done.
    + rewrite <- written_union. by rewrite (lookup_insert_ne _ _ _ _ Hk).
Qed.

Lemma init_any_lookup b s k :
  k <> "axes.prop_cycle" ->
  rcParams (snd (init b s)) !! k = (written b ∪ rcParams s) !! k.
Proof.
  intros Hk. destruct s as [cols cfg]. rewrite init_any.
  destruct (validate_colorlist cols); simpl.
  - by rewrite lookup_insert_ne.
  - rewrite lookup_partial_alter. by case_decide.
Qed.

Lemma written_union_lookup b (cfg : gmap string pyval) k v :
  written b !! k = Some v -> (written b ∪ cfg) !! k = Some v.
Proof. intros H. rewrite lookup_union, H. by destruct (cfg !! k). Qed.

Lemma written_flag_other k :
  k <> "text.usetex" -> written true !! k = written false !! k.
Proof.
  intros Hk. destruct (decide (k ∈ written_keys)) as [Hin|Hout].
  - unfold written_keys in Hin.
    repeat (apply elem_of_cons in Hin as [->|Hin];
            [reflexivity || contradiction|]).
    by apply elem_of_nil in Hin.
  - by rewrite !written_out.
Qed.

Lemma COLORS_NoDup : NoDup COLORS.
Proof. apply (bool_decide_unpack _). vm_compute. exact I. Qed.

Lemma run_calls_snoc flags b s :
  run_calls (flags ++ [b]) s = snd (init b (run_calls flags s)).
Proof. unfold run_calls. by rewrite fold_left_app. Qed.

Lemma init_any_outcome b s :
  fst (init b s)
  = if validate_colorlist (mod_COLORS s) then Ok VNone
    else Raise (ValueError "axes.prop_cycle").
Proof.
  destruct s as [cols cfg]. rewrite init_any. simpl.
  by destruct (validate_colorlist cols).
Qed.

Lemma init_any_cycle b s :
  rcParams (snd (init b s)) !! "axes.prop_cycle"
  = if validate_colorlist (mod_COLORS s)
    then Some (VCycler (cycler "color" (mod_COLORS s)))
    else rcParams s !! "axes.prop_cycle".
Proof.
  destruct s as [cols cfg]. rewrite init_any. simpl.
  destruct (validate_colorlist cols); simpl.
  - apply lookup_insert_eq.
  - rewrite lookup_partial_alter. by case_decide.
Qed.

Lemma init_any_usetex b s :
  rcParams (snd (init b s)) !! "text.usetex" = Some (VBool b).
Proof.
  rewrite init_any_lookup by discriminate.
  by apply written_union_lookup.
Qed.

Lemma init_series_lookup b cfg n i :
  i < n ->
  series_colors (rcParams (snd (init b (load_module cfg)))) n !! i
  = COLORS !! (i mod 6).
Proof.
  intros Hi.
  assert (Hcyc : rcParams (snd (init b (load_module cfg)))
                   !! "axes.prop_cycle"
                 = Some (VCycler (cycler "color" COLORS)))
    by (rewrite init_loaded_lookup; reflexivity).
  unfold series_colors, cycler_items. rewrite Hcyc.
  by rewrite (assign_colors_lookup COLORS n 0 i) by (simpl; lia).
Qed.

(** X1.  From any state and whether or not the call raises, the nine
    plain assignments of [init] have been made when it ends: the eight
    fixed values and the flag are in the registry. *)
Theorem init_plain_writes_always (b : bool) (s : state) :
  let r := rcParams (snd (init b s)) in
  r !! "figure.dpi" = Some (VNum 150) /\
  r !! "axes.linewidth" = Some (VNum 2) /\
  r !! "lines.linewidth" = Some (VNum 2) /\
  r !! "font.size" = Some (VNum 14) /\
  r !! "legend.fontsize" = Some (VNum 10) /\
  r !! "pdf.fonttype" = Some (VNum 42) /\
  r !! "figure.facecolor" = Some (VStr "white") /\
  r !! "font.sans-serif"
    = Some (VStrList ["Helvetica Neue"; "Helvetica"; "Tahoma"]) /\
  r !! "text.usetex" = Some (VBool b).
Proof.
  cbv zeta.
  repeat split;
    (rewrite init_any_lookup by discriminate;
     apply written_union_lookup; reflexivity).
Qed.


(** X3.  [init] never removes a registry entry: a key present before the
    call is present after it, from any state, returning or raising. *)
Theorem init_never_removes (b : bool) (s : state) (k : string)
  (Hk : is_Some (rcParams s !! k)) :
  is_Some (rcParams (snd (init b s)) !! k).
Proof.
  destruct (decide (k = "axes.prop_cycle")) as [->|Hne].
  - rewrite init_any_cycle.
    destruct (validate_colorlist (mod_COLORS s)); eauto.
  - rewrite init_any_lookup by done. rewrite lookup_union.
    destruct Hk as [v ->]. destruct (written b !! k); simpl; eauto.
Qed.

Lemma init_never_removes_witness :
  is_Some (rcParams (mkState ["nocolour"] {["axes.prop_cycle" := VNone]})
             !! "axes.prop_cycle") /\
  is_Some (rcParams (snd (init false
             (mkState ["nocolour"] {["axes.prop_cycle" := VNone]})))
             !! "axes.prop_cycle").
Proof.
  assert (H : is_Some (rcParams (mkState ["nocolour"]
                                   {["axes.prop_cycle" := VNone]})
                         !! "axes.prop_cycle"))
    by (exists VNone; reflexivity).
  split; [exact H|].
  exact (init_never_removes false _ "axes.prop_cycle" H).
Defined.

(** X4.  The flag reaches [text.usetex] and nothing else: from any state,
    [init True] and [init False] have the same outcome, leave the same
    global and agree on every registry key other than [text.usetex],
    where they differ. *)
Theorem init_flag_only_usetex (s : state) (k : string)
  (Hk : k <> "text.usetex") :
  rcParams (snd (init true s)) !! k = rcParams (snd (init false s)) !! k /\
  fst (init true s) = fst (init false s) /\
  mod_COLORS (snd (init true s)) = mod_COLORS (snd (init false s)) /\
  rcParams (snd (init true s)) !! "text.usetex"
  <> rcParams (snd (init false s)) !! "text.usetex".
Proof.
  split; [|split; [|split]].
  - destruct (decide (k = "axes.prop_cycle")) as [->|Hne].
    + by rewrite !init_any_cycle.
    + rewrite !init_any_lookup by done. rewrite !lookup_union.
      by rewrite (written_flag_other k Hk).
  - by rewrite !init_any_outcome.
  - by rewrite !init_keeps_COLORS.
  - rewrite !init_any_usetex. discriminate.
Qed.

Lemma init_flag_only_usetex_witness :
  "font.size" <> "text.usetex" /\
  rcParams (snd (init true (load_module ∅))) !! "font.size"
  = rcParams (snd (init false (load_module ∅))) !! "font.size".
Proof.
  assert (H : "font.size" <> "text.usetex") by discriminate.
  split; [exact H|].
  exact (proj1 (init_flag_only_usetex (load_module ∅) "font.size" H)).
Defined.

(** X5.  On a fresh axes after [init], two series get the same colour
    exactly when their numbers are congruent modulo 6: the six palette
    entries are pairwise different and the cycle has period 6. *)
Theorem series_share_colour_iff (b : bool) (cfg : gmap string pyval)
  (n i j : nat) (Hi : i < n) (Hj : j < n) :
  let r := rcParams (snd (init b (load_module cfg))) in
  series_colors r n !! i = series_colors r n !! j <-> i mod 6 = j mod 6.
Proof.
  cbv zeta.
  rewrite !init_series_lookup by done.
  assert (Hbi : i mod 6 < length COLORS)
    by (apply Nat.mod_upper_bound; discriminate).
  assert (Hbj : j mod 6 < length COLORS)
    by (apply Nat.mod_upper_bound; discriminate).
  split; [|by intros ->].
  intros Heq.
  destruct (lookup_lt_is_Some_2 COLORS _ Hbi) as [c Hc].
  rewrite Hc in Heq. symmetry in Heq.
  exact (NoDup_lookup COLORS _ _ c COLORS_NoDup Hc Heq).
Qed.

Lemma series_share_colour_iff_witness :
  1 < 9 /\ 7 < 9 /\
  series_colors (rcParams (snd (init true (load_module ∅)))) 9 !! 1
  = series_colors (rcParams (snd (init true (load_module ∅)))) 9 !! 7.
Proof.
  assert (H1 : 1 < 9) by lia. assert (H7 : 7 < 9) by lia.
  split; [exact H1|]. split; [exact H7|].
  destruct (series_share_colour_iff true ∅ 9 1 7 H1 H7) as [_ Hback].
  apply Hback. reflexivity.
Defined.

(** X6.  Any sequence of calls of [init] after the import leaves the
    state of its last call alone: the global is the palette and the
    registry is the starting one overwritten by the last call's entries;
    without a call nothing has changed. *)
Theorem run_calls_last_wins (flags : list bool) (cfg : gmap string pyval) :
  run_calls flags (load_module cfg)
  = load_module (match last flags with
                 | Some b => written b ∪ cfg
                 | None => cfg
                 end).
Proof.
  induction flags as [|b flags IH] using rev_ind; [reflexivity|].
  rewrite run_calls_snoc, IH, init_loaded, last_snoc. cbn [snd].
  destruct (last flags) as [a|]; [|reflexivity].
  f_equal. apply written_overwrites.
Qed.

(** X7.  After [init] on the imported module the registry has the keys it
    had and the ten written ones, no other. *)
Theorem init_registry_keys (b : bool) (cfg : gmap string pyval) :
  dom (rcParams (snd (init b (load_module cfg))))
  = list_to_set written_keys ∪ dom cfg.
Proof.
  rewrite init_loaded. cbn [snd rcParams load_module].
  rewrite dom_union_L. unfold written. by rewrite dom_list_to_map_L.
Qed.


